(** * tensor2tensor/tpu/tpu_trainer_lib.py : a shallow embedding

    The module only translates arguments into configuration records of
    the estimator framework.  The framework objects (RunConfig,
    TPUConfig, Estimator, TPUEstimator, Experiment, HParams) are
    modelled as records carrying the fields this module sets or reads;
    the parts owned by other modules (the problem registry, the model
    function and input functions) are parameters of a Section. *)

From Stdlib Require Import ZArith List String Ascii Bool Lia.
Import ListNotations.
Open Scope Z_scope.

(** ** Python helpers *)

(** [int(b)] for a Python bool. *)
Definition py_int_of_bool (b : bool) : Z := if b then 1 else 0.

(** [sub in s] for Python strings: [sub] occurs at some position of [s]. *)
Fixpoint str_contains (sub s : string) : bool :=
  prefix sub s ||
  match s with
  | EmptyString => false
  | String _ rest => str_contains sub rest
  end.

(** [s.split("-")]: the pieces between the separators, in order;
    [cur] is the piece being read. *)
Fixpoint split_dash_aux (cur s : string) : list string :=
  match s with
  | EmptyString => [cur]
  | String c rest =>
      if Ascii.eqb c "-"%char then cur :: split_dash_aux EmptyString rest
      else split_dash_aux (cur ++ String c EmptyString) rest
  end.

Definition split_dash (s : string) : list string := split_dash_aux EmptyString s.

(** ** Run configuration ([create_run_config]) *)

(** [tf.ConfigProto(allow_soft_placement=..., log_device_placement=...)] *)
Record ConfigProto := {
  allow_soft_placement : bool;
  log_device_placement : bool
}.

(** [tf.contrib.tpu.TPUConfig(...)] *)
Record TPUConfig := {
  iterations_per_loop : Z;
  num_shards : Z;
  per_host_input_for_training : bool
}.

(** The value of [config.t2t_device_info] when it is not the empty dict. *)
Record DeviceInfo := {
  di_num_gpus : Z;
  di_gpu_order : string;
  di_shard_to_cpu : bool;
  di_num_shards : Z;
  di_num_async_replicas : Z
}.

(** The class the configuration is built with. *)
Inductive RunConfigCls := EstimatorRunConfig | TPURunConfig.

(** A run configuration: the keyword arguments of its constructor
    ([master] and [tpu_config] are [None] when not passed) and the two
    attributes set afterwards; [t2t_device_info = None] stands for the
    empty dict [{}]. *)
Record RunConfig := {
  rc_cls : RunConfigCls;
  rc_model_dir : option string;
  rc_session_config : ConfigProto;
  rc_save_summary_steps : Z;
  rc_save_checkpoints_steps : Z;
  rc_master : option string;
  rc_tpu_config : option TPUConfig;
  rc_use_tpu : bool;
  t2t_device_info : option DeviceInfo
}.

Definition create_run_config (master : string) (model_dir : option string)
    (iterations_per_loop_ num_shards_ : Z) (log_device_placement_ : bool)
    (save_checkpoints_steps : Z) (num_gpus : Z) (gpu_order : string)
    (shard_to_cpu : bool) (num_async_replicas : Z) (use_tpu : bool)
    : RunConfig :=
  let session_config :=
    {| allow_soft_placement := true;
       log_device_placement := log_device_placement_ |} in
  let tpu_config :=
    {| iterations_per_loop := iterations_per_loop_;
       num_shards := num_shards_;
       per_host_input_for_training := num_shards_ <=? 8 |} in
  {| rc_cls := if use_tpu then TPURunConfig else EstimatorRunConfig;
     rc_model_dir := model_dir;
     rc_session_config := session_config;
     rc_save_summary_steps := 0;
     rc_save_checkpoints_steps := save_checkpoints_steps;
     rc_master := if use_tpu then Some master else None;
     rc_tpu_config := if use_tpu then Some tpu_config else None;
     rc_use_tpu := use_tpu;
     t2t_device_info :=
       if negb use_tpu then
         Some {| di_num_gpus := num_gpus;
                 di_gpu_order := gpu_order;
                 di_shard_to_cpu := shard_to_cpu;
                 di_num_shards := Z.max 1 (num_gpus + py_int_of_bool shard_to_cpu);
                 di_num_async_replicas := num_async_replicas |}
       else None |}.

(** ** Python exceptions raised along the paths of this module *)
Inductive PyExc :=
  | LookupError (name : string)     (* registry.problem on an unknown name *)
  | AttributeError (attr : string)  (* a missing attribute *)
  | ValueError (msg : string)       (* HParams.add_hparam on a set name *)
  | IndexError.                     (* list index out of range *)

Inductive result (A : Type) :=
  | Ok (a : A)
  | Err (e : PyExc).
Arguments Ok {A} a.
Arguments Err {A} e.

(** [tf.estimator.ModeKeys] *)
Inductive ModeKey := TRAIN | EVAL.

(** ** Argument checks of the framework constructors

    [create_run_config] above is the configuration the module assembles.
    The framework constructors it calls check some of their arguments
    and raise [ValueError]; the checks that can fire on the arguments of
    [create_run_config] are modelled here. *)

(** [tf.contrib.tpu.TPUConfig(...)] (line 55): [iterations_per_loop] and
    [num_shards] must be positive integers. *)
Definition make_tpu_config (iterations_per_loop_ num_shards_ : Z)
    (per_host_input_for_training_ : bool) : result TPUConfig :=
  if iterations_per_loop_ <=? 0 then
    Err (ValueError "TPUConfig iterations_per_loop must be positive integer")
  else if num_shards_ <=? 0 then
    Err (ValueError "TPUConfig num_shards must be positive integer")
  else Ok {| iterations_per_loop := iterations_per_loop_;
             num_shards := num_shards_;
             per_host_input_for_training := per_host_input_for_training_ |}.

(** The property checks of [RunConfig] (line 62) on the arguments the
    module passes: a non-[None] [model_dir] must be non-empty and
    [save_checkpoints_steps] must be non-negative ([save_summary_steps]
    is the constant 0). *)
Definition check_run_config_args (model_dir : option string)
    (save_checkpoints_steps : Z) : result unit :=
  match model_dir with
  | Some EmptyString => Err (ValueError "model_dir should be non-empty")
  | _ =>
      if save_checkpoints_steps <? 0 then
        Err (ValueError "save_checkpoints_steps should be >= 0")
      else Ok tt
  end.

(** [create_run_config] as a call: the [TPUConfig] is constructed first
    (in accelerator mode), then the [RunConfig]; when neither raises the
    result is the configuration [create_run_config] assembles. *)
Definition create_run_config_checked (master : string)
    (model_dir : option string) (iterations_per_loop_ num_shards_ : Z)
    (log_device_placement_ : bool) (save_checkpoints_steps : Z)
    (num_gpus : Z) (gpu_order : string) (shard_to_cpu : bool)
    (num_async_replicas : Z) (use_tpu : bool) : result RunConfig :=
  let tpu_config :=
    if use_tpu then
      match make_tpu_config iterations_per_loop_ num_shards_
              (num_shards_ <=? 8) with
      | Ok tc => Ok (Some tc)
      | Err e => Err e
      end
    else Ok None in
  match tpu_config with
  | Err e => Err e
  | Ok _ =>
      match check_run_config_args model_dir save_checkpoints_steps with
      | Err e => Err e
      | Ok _ =>
          Ok (create_run_config master model_dir iterations_per_loop_
                num_shards_ log_device_placement_ save_checkpoints_steps
                num_gpus gpu_order shard_to_cpu num_async_replicas use_tpu)
      end
  end.

Section TrainerLib.

(** Objects owned by other modules. *)
Context {Problem PHParams InputFn ModelFn : Type}.

(** The fields of the caller's [HParams] object this module reads or
    writes; [hp_data_dir = None] when the hparam is absent or [None]. *)
Record HParams := {
  tpu_batch_size_per_shard : Z;
  hp_data_dir : option string;
  problems : list PHParams;
  problem_instances : list Problem
}.

(** [registry.problem(name)]: [None] when [name] is not registered. *)
Variable registry_problem : string -> option Problem.
(** [problem.get_hparams(hparams)] *)
Variable get_hparams : Problem -> HParams -> PHParams.
(** [problem.make_estimator_input_fn(mode, hparams)] *)
Variable make_estimator_input_fn : Problem -> ModeKey -> HParams -> InputFn.
(** [t2t_model.T2TModel.make_estimator_model_fn(model_name, hparams, use_tpu)] *)
Variable make_estimator_model_fn : string -> HParams -> bool -> ModelFn.

(** The caller's [hparams] object is mutated in place: the code runs in
    a state monad over it, with Python exceptions. *)
Definition M (A : Type) : Type := HParams -> HParams * result A.

Definition ret {A} (a : A) : M A := fun h => (h, Ok a).
Definition raise {A} (e : PyExc) : M A := fun h => (h, Err e).
Definition bind {A B} (m : M A) (f : A -> M B) : M B :=
  fun h => match m h with
           | (h', Ok a) => f a h'
           | (h', Err e) => (h', Err e)
           end.
Definition get : M HParams := fun h => (h, Ok h).
Definition put (h : HParams) : M unit := fun _ => (h, Ok tt).

Local Notation "x <- m ; k" := (bind m (fun x => k))
  (at level 60, m at next level, right associativity).
Local Notation "m ;; k" := (bind m (fun _ : unit => k))
  (at level 60, right associativity).

Definition set_problems (l : list PHParams) (h : HParams) : HParams :=
  {| tpu_batch_size_per_shard := tpu_batch_size_per_shard h;
     hp_data_dir := hp_data_dir h;
     problems := l;
     problem_instances := problem_instances h |}.

Definition set_problem_instances (l : list Problem) (h : HParams) : HParams :=
  {| tpu_batch_size_per_shard := tpu_batch_size_per_shard h;
     hp_data_dir := hp_data_dir h;
     problems := problems h;
     problem_instances := l |}.

(** [registry.problem(name)], raising on an unknown name. *)
Definition registry_lookup (name : string) : M Problem :=
  match registry_problem name with
  | Some p => ret p
  | None => raise (LookupError name)
  end.

(** The body of the [for] loop of [add_problem_hparams], over the
    remaining names. *)
Fixpoint add_problem_hparams_loop (names : list string) : M unit :=
  match names with
  | [] => ret tt
  | problem_name :: rest =>
      problem <- registry_lookup problem_name;
      h <- get;
      let p_hparams := get_hparams problem h in
      h <- get;
      put (set_problem_instances (problem_instances h ++ [problem]) h);;
      h <- get;
      put (set_problems (problems h ++ [p_hparams]) h);;
      add_problem_hparams_loop rest
  end.

Definition add_problem_hparams (problems_ : string) : M unit :=
  h <- get;
  put (set_problems [] h);;
  h <- get;
  put (set_problem_instances [] h);;
  add_problem_hparams_loop (split_dash problems_).

(** [hparams.add_hparam("data_dir", data_dir)]: HParams refuses a name
    whose attribute is already set to a value other than [None]. *)
Definition add_hparam_data_dir (data_dir : option string) : M unit :=
  h <- get;
  match hp_data_dir h with
  | Some _ => raise (ValueError "Hyperparameter name is reserved: data_dir")
  | None =>
      put {| tpu_batch_size_per_shard := tpu_batch_size_per_shard h;
             hp_data_dir := data_dir;
             problems := problems h;
             problem_instances := problem_instances h |}
  end.

(** ** Estimator ([create_estimator]) *)

(** The two estimator classes with the keyword arguments they are built
    with. *)
Inductive Estimator :=
  | TPUEstimator (model_fn : ModelFn) (model_dir : option string)
      (config : RunConfig) (train_batch_size : Z)
      (eval_batch_size : option Z)
  | GenericEstimator (model_fn : ModelFn) (model_dir : option string)
      (config : RunConfig).

(** Reading [run_config.tpu_config] fails on a configuration built
    without one.  The estimator constructors are modelled by the
    arguments they receive: their own argument checks (those of
    [TPUEstimator] on batch sizes and shard counts) are not, so [Ok]
    here means that this function itself raised nothing. *)
Definition create_estimator (model_name : string) (hparams : HParams)
    (run_config : RunConfig) (schedule : string) (use_tpu : bool)
    : result Estimator :=
  let model_fn := make_estimator_model_fn model_name hparams use_tpu in
  if use_tpu then
    match rc_tpu_config run_config with
    | None => Err (AttributeError "tpu_config")
    | Some tc =>
        let batch_size := tpu_batch_size_per_shard hparams in
        let batch_size := batch_size * num_shards tc in
        let eval_batch_size := Some (batch_size * 2) in
        let eval_batch_size :=
          if negb (str_contains "eval" schedule) then None
          else eval_batch_size in
        Ok (TPUEstimator model_fn (rc_model_dir run_config) run_config
              batch_size eval_batch_size)
    end
  else Ok (GenericEstimator model_fn (rc_model_dir run_config) run_config).

(** ** Experiment ([create_experiment], [create_experiment_fn]) *)

(** [tf.contrib.learn.Experiment(...)] *)
Record Experiment := {
  exp_estimator : Estimator;
  exp_train_input_fn : InputFn;
  exp_eval_input_fn : InputFn;
  exp_train_steps : Z;
  exp_eval_steps : Z;
  exp_min_eval_frequency : Z;
  exp_train_steps_per_iteration : Z
}.

(** The arguments of [create_experiment] after [run_config] and
    [hparams], as captured by [create_experiment_fn]. *)
Record ExperimentArgs := {
  ea_model_name : string;
  ea_problem_name : string;
  ea_data_dir : option string;
  ea_train_steps : Z;
  ea_eval_steps : Z;
  ea_min_eval_frequency : Z;
  ea_schedule : string;
  ea_use_tpu : bool
}.

Definition lift_result {A} (r : result A) : M A :=
  match r with
  | Ok a => ret a
  | Err e => raise e
  end.

Definition create_experiment (run_config : RunConfig) (args : ExperimentArgs)
    : M Experiment :=
  add_hparam_data_dir (ea_data_dir args);;
  add_problem_hparams (ea_problem_name args);;
  hparams <- get;
  estimator <- lift_result
    (create_estimator (ea_model_name args) hparams run_config
       (ea_schedule args) (ea_use_tpu args));
  hparams <- get;
  problem <- lift_result
    (match nth_error (problem_instances hparams) 0 with
     | Some p => Ok p
     | None => Err IndexError
     end);
  hparams <- get;
  let train_input_fn := make_estimator_input_fn problem TRAIN hparams in
  let eval_input_fn := make_estimator_input_fn problem EVAL hparams in
  ret {| exp_estimator := estimator;
         exp_train_input_fn := train_input_fn;
         exp_eval_input_fn := eval_input_fn;
         exp_train_steps := ea_train_steps args;
         exp_eval_steps := ea_eval_steps args;
         exp_min_eval_frequency := ea_min_eval_frequency args;
         exp_train_steps_per_iteration := ea_min_eval_frequency args |}.

(** [create_experiment_fn] with its captured arguments returns the closure [experiment_fn];
    the [hparams] argument of the closure is the state of [M]. *)
Definition create_experiment_fn (args : ExperimentArgs)
    : RunConfig -> M Experiment :=
  let experiment_fn run_config := create_experiment run_config args in
  experiment_fn.

End TrainerLib.

(** * Properties *)

(** ** String helpers *)

Lemma prefix_spec (sub s : string) :
  prefix sub s = true <-> exists post, s = (sub ++ post)%string.
Proof.
  revert s; induction sub as [|a sub IH]; intros s.
  - assert (prefix "" s = true) as -> by (destruct s; reflexivity).
    split; [intros _; now exists s | auto].
  - destruct s as [|b s]; simpl.
    + split; [discriminate | intros [post H]; discriminate].
    + destruct (ascii_dec a b) as [->|Hab].
      * rewrite IH. split; intros [post H]; exists post.
        -- now rewrite H.
        -- now injection H.
      * split; [discriminate|]. intros [post H]. injection H; intros; congruence.
Qed.

Lemma str_contains_spec (sub s : string) :
  str_contains sub s = true <->
  exists pre post, s = (pre ++ sub ++ post)%string.
Proof.
  induction s as [|c s IH]; cbn [str_contains].
  - rewrite orb_false_r, prefix_spec. split.
    + intros [post H]. now exists EmptyString, post.
    + intros [pre [post H]]. exists post.
      destruct pre; [exact H | discriminate].
  - rewrite orb_true_iff, prefix_spec, IH. split.
    + intros [[post H] | [pre [post H]]].
      * now exists EmptyString, post.
      * exists (String c pre), post. now rewrite H.
    + intros [[|c' pre] [post H]].
      * left. now exists post.
      * right. injection H as _ H. now exists pre, post.
Qed.

Lemma str_contains_false (sub s : string) :
  str_contains sub s = false <->
  ~ exists pre post, s = (pre ++ sub ++ post)%string.
Proof.
  rewrite <- str_contains_spec. destruct (str_contains sub s); intuition congruence.
Qed.

Example split_dash_two : split_dash "probA-probB" = ["probA"; "probB"]%string.
Proof. reflexivity. Qed.

Example split_dash_empty : split_dash "" = [""]%string.
Proof. reflexivity. Qed.

Example split_dash_trailing : split_dash "a--" = ["a"; ""; ""]%string.
Proof. reflexivity. Qed.

Example str_contains_train : str_contains "eval" "train" = false.
Proof. reflexivity. Qed.

Example str_contains_train_and_evaluate :
  str_contains "eval" "train_and_evaluate" = true.
Proof. reflexivity. Qed.

(** ** Run configuration *)

(** C10: in accelerator mode the TPU configuration asks for per-host
    input exactly when at most 8 shards are requested. *)
Theorem create_run_config_per_host_input master model_dir iterations_per_loop_
    num_shards_ log_device_placement_ save_checkpoints_steps num_gpus gpu_order
    shard_to_cpu num_async_replicas :
  exists tc,
    rc_tpu_config
      (create_run_config master model_dir iterations_per_loop_ num_shards_
         log_device_placement_ save_checkpoints_steps num_gpus gpu_order
         shard_to_cpu num_async_replicas true) = Some tc /\
    (per_host_input_for_training tc = true <-> num_shards_ <= 8).
Proof.
  eexists; split; [reflexivity|]. simpl. apply Z.leb_le.
Qed.

(** C8: in accelerator mode the TPU configuration carries the requested
    shard and loop-iteration counts and the device-info record is the
    empty dict; with 8 shards and 500 iterations these are 8 and 500. *)
Theorem create_run_config_tpu_fields :
  (forall master model_dir iterations_per_loop_ num_shards_
          log_device_placement_ save_checkpoints_steps num_gpus gpu_order
          shard_to_cpu num_async_replicas,
     let rc := create_run_config master model_dir iterations_per_loop_
                 num_shards_ log_device_placement_ save_checkpoints_steps
                 num_gpus gpu_order shard_to_cpu num_async_replicas true in
     exists tc, rc_tpu_config rc = Some tc /\
       num_shards tc = num_shards_ /\
       iterations_per_loop tc = iterations_per_loop_ /\
       t2t_device_info rc = None) /\
  (forall master model_dir log_device_placement_ save_checkpoints_steps
          num_gpus gpu_order shard_to_cpu num_async_replicas,
     let rc := create_run_config master model_dir 500 8
                 log_device_placement_ save_checkpoints_steps
                 num_gpus gpu_order shard_to_cpu num_async_replicas true in
     exists tc, rc_tpu_config rc = Some tc /\
       num_shards tc = 8 /\ iterations_per_loop tc = 500 /\
       t2t_device_info rc = None).
Proof.
  split; intros; eexists; repeat split; reflexivity.
Qed.

(** C7: in generic mode the device-info shard count is the GPU count,
    plus one when sharding to the CPU, floored at 1; two GPUs with CPU
    sharding give 3. *)
Theorem create_run_config_device_info_shards :
  (forall master model_dir iterations_per_loop_ num_shards_
          log_device_placement_ save_checkpoints_steps num_gpus gpu_order
          shard_to_cpu num_async_replicas,
     exists di,
       t2t_device_info
         (create_run_config master model_dir iterations_per_loop_ num_shards_
            log_device_placement_ save_checkpoints_steps num_gpus gpu_order
            shard_to_cpu num_async_replicas false) = Some di /\
       di_num_shards di =
         (if shard_to_cpu then Z.max 1 (num_gpus + 1) else Z.max 1 num_gpus)) /\
  (forall master model_dir iterations_per_loop_ num_shards_
          log_device_placement_ save_checkpoints_steps gpu_order
          num_async_replicas,
     exists di,
       t2t_device_info
         (create_run_config master model_dir iterations_per_loop_ num_shards_
            log_device_placement_ save_checkpoints_steps 2 gpu_order
            true num_async_replicas false) = Some di /\
       di_num_shards di = 3).
Proof.
  split; intros; eexists; split; try reflexivity.
  simpl. destruct shard_to_cpu; simpl; [reflexivity|]. now rewrite Z.add_0_r.
Qed.

(** C3, the claim as stated: every call of the run-configuration
    builder yields a configuration, its shard counts kept at least 1 by
    the module's own arithmetic, no input being rejected by a check. *)
Definition shard_counts_enforced_by_arithmetic : Prop :=
  forall master model_dir iterations_per_loop_ num_shards_
         log_device_placement_ save_checkpoints_steps num_gpus gpu_order
         shard_to_cpu num_async_replicas use_tpu,
    exists rc,
      create_run_config_checked master model_dir iterations_per_loop_
        num_shards_ log_device_placement_ save_checkpoints_steps num_gpus
        gpu_order shard_to_cpu num_async_replicas use_tpu = Ok rc /\
      (forall tc, rc_tpu_config rc = Some tc -> 1 <= num_shards tc) /\
      (forall di, t2t_device_info rc = Some di -> 1 <= di_num_shards di).

(** C3 fails at [num_shards=0] in accelerator mode: the shard count the
    module hands to [TPUConfig] is 0 (no arithmetic raises it), and the
    call raises the [ValueError] of [TPUConfig]'s check instead of
    returning a configuration. *)
Lemma create_run_config_zero_shards :
  option_map num_shards
    (rc_tpu_config
       (create_run_config "" None 1000 0 false 1000 1 "" false 1 true)) =
    Some 0 /\
  create_run_config_checked "" None 1000 0 false 1000 1 "" false 1 true =
    Err (ValueError "TPUConfig num_shards must be positive integer") /\
  ~ shard_counts_enforced_by_arithmetic.
Proof.
  split; [reflexivity|]. split; [reflexivity|].
  unfold shard_counts_enforced_by_arithmetic. intros H.
  destruct (H ""%string None 1000 0 false 1000 1 ""%string false 1 true)
    as [rc [Hrc _]].
  discriminate Hrc.
Qed.

(** C3, amended: the module's arithmetic keeps only the generic
    device-info shard count at least 1 ([max(1, ...)]).  The accelerator
    shard count is handed to [TPUConfig] unchanged, and [TPUConfig]'s
    check raises [ValueError] on a count below 1, so a configuration the
    builder returns has at least one accelerator shard by that check.
    The asynchronous replica count is copied unchanged. *)
Theorem create_run_config_shard_bounds master model_dir iterations_per_loop_
    num_shards_ log_device_placement_ save_checkpoints_steps num_gpus gpu_order
    shard_to_cpu num_async_replicas use_tpu :
  (forall rc,
     create_run_config_checked master model_dir iterations_per_loop_
       num_shards_ log_device_placement_ save_checkpoints_steps num_gpus
       gpu_order shard_to_cpu num_async_replicas use_tpu = Ok rc ->
     (forall tc, rc_tpu_config rc = Some tc ->
        num_shards tc = num_shards_ /\ 1 <= num_shards tc) /\
     (forall di, t2t_device_info rc = Some di ->
        1 <= di_num_shards di /\ di_num_async_replicas di = num_async_replicas)) /\
  (use_tpu = true -> num_shards_ < 1 ->
   exists msg,
     create_run_config_checked master model_dir iterations_per_loop_
       num_shards_ log_device_placement_ save_checkpoints_steps num_gpus
       gpu_order shard_to_cpu num_async_replicas use_tpu = Err (ValueError msg)).
Proof.
  unfold create_run_config_checked, make_tpu_config.
  split.
  - intros rc Hrc.
    destruct use_tpu.
    + destruct (iterations_per_loop_ <=? 0); [discriminate|].
      destruct (num_shards_ <=? 0) eqn:Hns; [discriminate|].
      apply Z.leb_gt in Hns.
      destruct (check_run_config_args model_dir save_checkpoints_steps);
        [|discriminate].
      injection Hrc as <-. simpl. split.
      * intros tc Htc. injection Htc as <-. simpl. split; [reflexivity | lia].
      * intros di Hdi. discriminate.
    + destruct (check_run_config_args model_dir save_checkpoints_steps);
        [|discriminate].
      injection Hrc as <-. simpl. split.
      * intros tc Htc. discriminate.
      * intros di Hdi. injection Hdi as <-. simpl. split; [lia | reflexivity].
  - intros -> Hns.
    destruct (iterations_per_loop_ <=? 0); [eexists; reflexivity|].
    replace (num_shards_ <=? 0) with true by (symmetry; apply Z.leb_le; lia).
    eexists; reflexivity.
Qed.

(** ** Estimator *)

Section EstimatorProps.

Context {Problem PHParams ModelFn : Type}.
Variable make_estimator_model_fn :
  string -> @HParams Problem PHParams -> bool -> ModelFn.

(** C1: in accelerator mode the evaluation batch size is [None] exactly
    when ["eval"] does not occur in the schedule, and twice the training
    batch size otherwise. *)
Theorem create_estimator_eval_batch_suppressed model_name hparams run_config
    schedule tc (Htc : rc_tpu_config run_config = Some tc) :
  exists train_batch_size eval_batch_size,
    create_estimator make_estimator_model_fn model_name hparams run_config
      schedule true =
      Ok (TPUEstimator (make_estimator_model_fn model_name hparams true)
            (rc_model_dir run_config) run_config train_batch_size
            eval_batch_size) /\
    (eval_batch_size = None <->
       ~ exists pre post, schedule = (pre ++ "eval" ++ post)%string) /\
    ((exists pre post, schedule = (pre ++ "eval" ++ post)%string) ->
       eval_batch_size = Some (train_batch_size * 2)).
Proof.
  unfold create_estimator. rewrite Htc. do 2 eexists. split; [reflexivity|].
  destruct (str_contains "eval" schedule) eqn:E; simpl.
  - apply str_contains_spec in E. split; [|reflexivity].
    split; [discriminate | tauto].
  - apply str_contains_false in E. split; [tauto|].
    intros H; contradiction.
Qed.

(** C2: in accelerator mode the training batch size is
    [tpu_batch_size_per_shard * num_shards] and the evaluation batch
    size, when present, is twice it; with 16 per shard and 8 shards these
    are 128, and 256 under ["train_and_evaluate"] (none under ["train"]). *)
Theorem create_estimator_batch_sizes :
  (forall model_name hparams run_config schedule tc,
     rc_tpu_config run_config = Some tc ->
     exists eval_batch_size,
       create_estimator make_estimator_model_fn model_name hparams run_config
         schedule true =
         Ok (TPUEstimator (make_estimator_model_fn model_name hparams true)
               (rc_model_dir run_config) run_config
               (tpu_batch_size_per_shard hparams * num_shards tc)
               eval_batch_size) /\
       (eval_batch_size = None \/
        eval_batch_size =
          Some (2 * (tpu_batch_size_per_shard hparams * num_shards tc)))) /\
  (forall model_name data_dir problems_ problem_instances_ run_config tc,
     rc_tpu_config run_config = Some tc -> num_shards tc = 8 ->
     let hparams := {| tpu_batch_size_per_shard := 16; hp_data_dir := data_dir;
                       problems := problems_;
                       problem_instances := problem_instances_ |} in
     create_estimator make_estimator_model_fn model_name hparams run_config
       "train" true =
       Ok (TPUEstimator (make_estimator_model_fn model_name hparams true)
             (rc_model_dir run_config) run_config 128 None) /\
     create_estimator make_estimator_model_fn model_name hparams run_config
       "train_and_evaluate" true =
       Ok (TPUEstimator (make_estimator_model_fn model_name hparams true)
             (rc_model_dir run_config) run_config 128 (Some 256))).
Proof.
  split.
  - intros model_name hparams run_config schedule tc Htc.
    unfold create_estimator. rewrite Htc. eexists. split; [reflexivity|].
    destruct (negb (str_contains "eval" schedule)); [left | right];
      f_equal; try lia; reflexivity.
  - intros model_name data_dir problems_ problem_instances_ run_config tc
      Htc Hn hparams.
    unfold create_estimator. rewrite Htc, Hn. split; reflexivity.
Qed.

End EstimatorProps.

(** ** Problem hparams and experiments *)

Section ProblemProps.

Local Open Scope list_scope.

Context {Problem PHParams InputFn ModelFn : Type}.
Variable registry_problem : string -> option Problem.
Variable get_hparams : Problem -> @HParams Problem PHParams -> PHParams.
Variable make_estimator_input_fn :
  Problem -> ModeKey -> @HParams Problem PHParams -> InputFn.
Variable make_estimator_model_fn :
  string -> @HParams Problem PHParams -> bool -> ModelFn.

Lemma bind_ok {A B} (m : @M Problem PHParams A)
    (f : A -> @M Problem PHParams B) (h h' : HParams) (b : B) :
  bind m f h = (h', Ok b) ->
  exists a h1, m h = (h1, Ok a) /\ f a h1 = (h', Ok b).
Proof.
  unfold bind. destruct (m h) as [h1 [a|e]]; [|discriminate].
  intros H. now exists a, h1.
Qed.

Lemma map_some_cons_inv {A} (x : option A) xs (ps : list A) :
  x :: xs = map Some ps ->
  exists p ps', ps = p :: ps' /\ x = Some p /\ xs = map Some ps'.
Proof.
  destruct ps as [|p ps']; [discriminate|]. intros H. injection H as -> ->.
  now exists p, ps'.
Qed.

(** One pass of the loop over registered names appends, in order, one
    problem and one derived hparams set per name. *)
Lemma add_problem_hparams_loop_ok names ps h :
  map registry_problem names = map Some ps ->
  exists qs,
    add_problem_hparams_loop registry_problem get_hparams names h =
      ({| tpu_batch_size_per_shard := tpu_batch_size_per_shard h;
          hp_data_dir := hp_data_dir h;
          problems := problems h ++ qs;
          problem_instances := problem_instances h ++ ps |}, Ok tt) /\
    List.length qs = List.length ps /\
    forall i p, nth_error ps i = Some p ->
      nth_error qs i =
        Some (get_hparams p
          {| tpu_batch_size_per_shard := tpu_batch_size_per_shard h;
             hp_data_dir := hp_data_dir h;
             problems := problems h ++ firstn i qs;
             problem_instances := problem_instances h ++ firstn i ps |}).
Proof.
  revert ps h; induction names as [|n names IH]; intros ps h Hmap.
  - destruct ps; [|discriminate]. exists []. destruct h; simpl.
    rewrite !app_nil_r. split; [reflexivity|]. split; [reflexivity|].
    intros [|i] p H; discriminate.
  - apply map_some_cons_inv in Hmap as [p [ps' [-> [Hn Hmap]]]].
    set (q := get_hparams p h).
    destruct (IH ps'
      {| tpu_batch_size_per_shard := tpu_batch_size_per_shard h;
         hp_data_dir := hp_data_dir h;
         problems := problems h ++ [q];
         problem_instances := problem_instances h ++ [p] |} Hmap)
      as [qs [Hrun [Hlen Hnth]]].
    exists (q :: qs). simpl in Hrun, Hnth.
    cbn [add_problem_hparams_loop]. unfold bind at 1, registry_lookup.
    rewrite Hn.
    unfold ret, bind, get, put, set_problems, set_problem_instances.
    simpl. fold q. rewrite Hrun, <- !app_assoc. simpl.
    split; [reflexivity|]. split; [simpl; congruence|].
    intros [|i] p' Hi; simpl in Hi |- *.
    + injection Hi as <-. destruct h; simpl. now rewrite !app_nil_r.
    + rewrite (Hnth i p' Hi), <- !app_assoc. reflexivity.
Qed.

(** The loop stops at the first unregistered name, having appended the
    entries of the names before it only. *)
Lemma add_problem_hparams_loop_err pre n post ps h :
  map registry_problem pre = map Some ps ->
  registry_problem n = None ->
  exists qs,
    add_problem_hparams_loop registry_problem get_hparams (pre ++ n :: post) h =
      ({| tpu_batch_size_per_shard := tpu_batch_size_per_shard h;
          hp_data_dir := hp_data_dir h;
          problems := problems h ++ qs;
          problem_instances := problem_instances h ++ ps |},
       Err (LookupError n)) /\
    List.length qs = List.length ps.
Proof.
  revert ps h; induction pre as [|m pre IH]; intros ps h Hmap Hn.
  - destruct ps; [|discriminate]. exists []. simpl.
    unfold bind, registry_lookup. rewrite Hn. unfold raise.
    destruct h; simpl. now rewrite !app_nil_r.
  - apply map_some_cons_inv in Hmap as [p [ps' [-> [Hm Hmap]]]].
    set (q := get_hparams p h).
    destruct (IH ps'
      {| tpu_batch_size_per_shard := tpu_batch_size_per_shard h;
         hp_data_dir := hp_data_dir h;
         problems := problems h ++ [q];
         problem_instances := problem_instances h ++ [p] |} Hmap Hn)
      as [qs [Hrun Hlen]].
    exists (q :: qs). simpl in Hrun.
    cbn [app add_problem_hparams_loop]. unfold bind at 1, registry_lookup.
    rewrite Hm.
    unfold ret, bind, get, put, set_problems, set_problem_instances.
    simpl. fold q. rewrite Hrun, <- !app_assoc. simpl.
    split; [reflexivity | simpl; congruence].
Qed.

Lemma add_problem_hparams_reset problems_ h :
  add_problem_hparams registry_problem get_hparams problems_ h =
  add_problem_hparams_loop registry_problem get_hparams (split_dash problems_)
    {| tpu_batch_size_per_shard := tpu_batch_size_per_shard h;
       hp_data_dir := hp_data_dir h;
       problems := [];
       problem_instances := [] |}.
Proof. reflexivity. Qed.

(** C4: when every hyphen-separated name is registered, the problem
    lists are reset and then hold one problem and one derived hparams set
    per name, in the order of the string; each set is derived from the
    hparams as they stand when its name is reached.  For ["probA-probB"]
    the lists hold the two problems, in that order. *)
Theorem add_problem_hparams_in_order :
  (forall hparams problems_ ps,
     map registry_problem (split_dash problems_) = map Some ps ->
     exists hparams',
       add_problem_hparams registry_problem get_hparams problems_ hparams =
         (hparams', Ok tt) /\
       problem_instances hparams' = ps /\
       List.length (problems hparams') = List.length ps /\
       tpu_batch_size_per_shard hparams' = tpu_batch_size_per_shard hparams /\
       hp_data_dir hparams' = hp_data_dir hparams /\
       forall i p, nth_error ps i = Some p ->
         nth_error (problems hparams') i =
           Some (get_hparams p
             {| tpu_batch_size_per_shard := tpu_batch_size_per_shard hparams;
                hp_data_dir := hp_data_dir hparams;
                problems := firstn i (problems hparams');
                problem_instances := firstn i ps |})) /\
  (forall hparams a b,
     registry_problem "probA" = Some a -> registry_problem "probB" = Some b ->
     exists hparams',
       add_problem_hparams registry_problem get_hparams "probA-probB" hparams =
         (hparams', Ok tt) /\
       problem_instances hparams' = [a; b] /\
       List.length (problems hparams') = 2%nat).
Proof.
  assert (Hgen : forall hparams problems_ ps,
     map registry_problem (split_dash problems_) = map Some ps ->
     exists hparams',
       add_problem_hparams registry_problem get_hparams problems_ hparams =
         (hparams', Ok tt) /\
       problem_instances hparams' = ps /\
       List.length (problems hparams') = List.length ps /\
       tpu_batch_size_per_shard hparams' = tpu_batch_size_per_shard hparams /\
       hp_data_dir hparams' = hp_data_dir hparams /\
       forall i p, nth_error ps i = Some p ->
         nth_error (problems hparams') i =
           Some (get_hparams p
             {| tpu_batch_size_per_shard := tpu_batch_size_per_shard hparams;
                hp_data_dir := hp_data_dir hparams;
                problems := firstn i (problems hparams');
                problem_instances := firstn i ps |})).
  { intros hparams problems_ ps Hmap.
    rewrite add_problem_hparams_reset.
    destruct (add_problem_hparams_loop_ok _ ps
      {| tpu_batch_size_per_shard := tpu_batch_size_per_shard hparams;
         hp_data_dir := hp_data_dir hparams;
         problems := [];
         problem_instances := [] |} Hmap) as [qs [Hrun [Hlen Hnth]]].
    rewrite Hrun. eexists. split; [reflexivity|]. simpl.
    repeat split; [assumption|]. exact Hnth. }
  split; [exact Hgen|].
  intros hparams a b Ha Hb.
  destruct (Hgen hparams "probA-probB"%string [a; b]) as [h' [Hrun [Hps [Hlen _]]]].
  - simpl. now rewrite Ha, Hb.
  - exists h'. now repeat split.
Qed.

(** C5: on a name missing from the registry the attacher stops with the
    lookup error of that name; the lists then hold the entries of the
    names before it only, none for the missing name. *)
Theorem add_problem_hparams_unregistered hparams problems_ pre n post ps :
  split_dash problems_ = pre ++ n :: post ->
  map registry_problem pre = map Some ps ->
  registry_problem n = None ->
  exists hparams',
    add_problem_hparams registry_problem get_hparams problems_ hparams =
      (hparams', Err (LookupError n)) /\
    problem_instances hparams' = ps /\
    List.length (problems hparams') = List.length ps.
Proof.
  intros Hsplit Hmap Hn.
  rewrite add_problem_hparams_reset, Hsplit.
  destruct (add_problem_hparams_loop_err pre n post ps
    {| tpu_batch_size_per_shard := tpu_batch_size_per_shard hparams;
       hp_data_dir := hp_data_dir hparams;
       problems := [];
       problem_instances := [] |} Hmap Hn) as [qs [Hrun Hlen]].
  rewrite Hrun. eexists. split; [reflexivity|]. simpl. split; congruence.
Qed.

(** C6: the closure returned by [create_experiment_fn] behaves as
    [create_experiment] called with the run configuration, the hparams
    and the captured arguments. *)
Theorem create_experiment_fn_forwards args run_config hparams :
  create_experiment_fn registry_problem get_hparams make_estimator_input_fn
    make_estimator_model_fn args run_config hparams =
  create_experiment registry_problem get_hparams make_estimator_input_fn
    make_estimator_model_fn run_config args hparams.
Proof. reflexivity. Qed.

(** C9: an experiment returned by [create_experiment] has its minimum
    evaluation frequency and its training steps per iteration both equal
    to the [min_eval_frequency] argument. *)
Theorem create_experiment_min_eval_frequency run_config args hparams
    hparams' experiment :
  create_experiment registry_problem get_hparams make_estimator_input_fn
    make_estimator_model_fn run_config args hparams = (hparams', Ok experiment) ->
  exp_min_eval_frequency experiment = ea_min_eval_frequency args /\
  exp_train_steps_per_iteration experiment = ea_min_eval_frequency args.
Proof.
  unfold create_experiment. intros H.
  do 7 (apply bind_ok in H as [? [? [_ H]]]).
  unfold ret in H. injection H as _ <-. split; reflexivity.
Qed.

End ProblemProps.

(** * Concrete instances *)

(** A TPU run configuration with 8 shards, as [create_run_config]
    builds it by default. *)
Definition example_run_config : RunConfig :=
  create_run_config "" None 1000 8 false 1000 1 "" false 1 true.

Definition example_tpu_config : TPUConfig :=
  {| iterations_per_loop := 1000; num_shards := 8;
     per_host_input_for_training := true |}.

(** Problems are named by strings, derived hparams are counts. *)
Definition example_hparams : @HParams string nat :=
  {| tpu_batch_size_per_shard := 16; hp_data_dir := None;
     problems := []; problem_instances := [] |}.

Definition example_registry (name : string) : option string :=
  if String.eqb name "probA" then Some name
  else if String.eqb name "probB" then Some name
  else None.

Definition example_get_hparams (p : string) (h : @HParams string nat) : nat :=
  List.length (problem_instances h).

Definition example_input_fn (p : string) (mode : ModeKey)
    (h : @HParams string nat) : ModeKey * string := (mode, p).

Definition example_model_fn (model_name : string) (h : @HParams string nat)
    (use_tpu : bool) : string := model_name.

Definition example_args : ExperimentArgs :=
  {| ea_model_name := "transformer"; ea_problem_name := "probA-probB";
     ea_data_dir := Some "/tmp/t2t_data"%string; ea_train_steps := 1000;
     ea_eval_steps := 10; ea_min_eval_frequency := 100;
     ea_schedule := "train_and_evaluate"; ea_use_tpu := true |}.

Lemma create_estimator_eval_batch_suppressed_witness :
  rc_tpu_config example_run_config = Some example_tpu_config /\
  exists train_batch_size eval_batch_size,
    create_estimator example_model_fn "transformer" example_hparams
      example_run_config "train" true =
      Ok (TPUEstimator "transformer"%string None example_run_config
            train_batch_size eval_batch_size) /\
    (eval_batch_size = None <->
       ~ exists pre post, "train"%string = (pre ++ "eval" ++ post)%string) /\
    ((exists pre post, "train"%string = (pre ++ "eval" ++ post)%string) ->
       eval_batch_size = Some (train_batch_size * 2)).
Proof.
  split; [reflexivity|].
  exact (create_estimator_eval_batch_suppressed example_model_fn "transformer"
           example_hparams example_run_config "train" example_tpu_config
           eq_refl).
Defined.

Lemma create_estimator_batch_sizes_witness :
  rc_tpu_config example_run_config = Some example_tpu_config /\
  exists eval_batch_size,
    create_estimator example_model_fn "transformer" example_hparams
      example_run_config "train_and_evaluate" true =
      Ok (TPUEstimator "transformer"%string None example_run_config (16 * 8)
            eval_batch_size) /\
    (eval_batch_size = None \/ eval_batch_size = Some (2 * (16 * 8))).
Proof.
  split; [reflexivity|].
  exact (proj1 (create_estimator_batch_sizes example_model_fn)
           "transformer"%string example_hparams example_run_config
           "train_and_evaluate"%string example_tpu_config eq_refl).
Defined.

Lemma add_problem_hparams_in_order_witness :
  example_registry "probA" = Some "probA"%string /\
  example_registry "probB" = Some "probB"%string /\
  exists hparams',
    add_problem_hparams example_registry example_get_hparams "probA-probB"
      example_hparams = (hparams', Ok tt) /\
    problem_instances hparams' = ["probA"; "probB"]%string /\
    List.length (problems hparams') = 2%nat.
Proof.
  split; [reflexivity|]. split; [reflexivity|].
  exact (proj2 (add_problem_hparams_in_order example_registry
                  example_get_hparams) example_hparams "probA"%string
           "probB"%string eq_refl eq_refl).
Defined.

Lemma add_problem_hparams_unregistered_witness :
  split_dash "probA-probX-probB" = ["probA"]%string ++ "probX"%string :: ["probB"]%string /\
  map example_registry ["probA"]%string = map Some ["probA"]%string /\
  example_registry "probX" = None /\
  exists hparams',
    add_problem_hparams example_registry example_get_hparams
      "probA-probX-probB" example_hparams =
      (hparams', Err (LookupError "probX")) /\
    problem_instances hparams' = ["probA"]%string /\
    List.length (problems hparams') = 1%nat.
Proof.
  split; [reflexivity|]. split; [reflexivity|]. split; [reflexivity|].
  exact (add_problem_hparams_unregistered example_registry example_get_hparams
           example_hparams "probA-probX-probB" ["probA"]%string "probX"
           ["probB"]%string ["probA"]%string eq_refl eq_refl eq_refl).
Defined.

Lemma create_experiment_min_eval_frequency_witness :
  exists hparams' experiment,
    create_experiment example_registry example_get_hparams example_input_fn
      example_model_fn example_run_config example_args example_hparams =
      (hparams', Ok experiment) /\
    exp_min_eval_frequency experiment = 100 /\
    exp_train_steps_per_iteration experiment = 100.
Proof.
  destruct (create_experiment example_registry example_get_hparams
              example_input_fn example_model_fn example_run_config
              example_args example_hparams) as [h' [e|x]] eqn:E.
  - exists h', e. split; [reflexivity|].
    exact (create_experiment_min_eval_frequency example_registry
             example_get_hparams example_input_fn example_model_fn
             example_run_config example_args example_hparams h' e E).
  - vm_compute in E. discriminate.
Defined.

(** * Further properties of the module *)

(** ** [problems.split("-")] *)

Lemma str_append_assoc (a b c : string) :
  (a ++ (b ++ c) = (a ++ b) ++ c)%string.
Proof. induction a as [|x a IH]; simpl; [reflexivity | now rewrite IH]. Qed.

Lemma str_append_empty_r (a : string) : (a ++ "")%string = a.
Proof. induction a as [|x a IH]; simpl; [reflexivity | now rewrite IH]. Qed.

Lemma split_dash_aux_length (cur s : string) :
  List.length (split_dash_aux cur s) =
  S (count_occ ascii_dec (list_ascii_of_string s) "-"%char).
Proof.
  revert cur; induction s as [|c s IH]; intros cur; simpl; [reflexivity|].
  destruct (ascii_dec c "-"%char) as [->|Hc]; simpl.
  - now rewrite IH.
  - replace (Ascii.eqb c "-") with false; [apply IH|].
    symmetry. apply Ascii.eqb_neq. congruence.
Qed.

Lemma split_dash_aux_concat (cur s : string) :
  concat "-" (split_dash_aux cur s) = (cur ++ s)%string.
Proof.
  revert cur; induction s as [|c s IH]; intros cur; simpl.
  - now rewrite str_append_empty_r.
  - destruct (Ascii.eqb c "-") eqn:Hc.
    + apply Ascii.eqb_eq in Hc. subst c.
      pose proof (split_dash_aux_length EmptyString s) as Hlen.
      destruct (split_dash_aux EmptyString s) as [|x xs] eqn:E;
        [discriminate|].
      change (concat "-" (cur :: x :: xs))
        with (cur ++ "-" ++ concat "-" (x :: xs))%string.
      rewrite <- E, IH. reflexivity.
    + rewrite IH, <- str_append_assoc. reflexivity.
Qed.

(** [problems.split("-")] loses nothing: joining the pieces with ["-"]
    gives the string back. *)
Theorem split_dash_join (s : string) : concat "-" (split_dash s) = s.
Proof. apply split_dash_aux_concat. Qed.

(** [problems.split("-")] yields one more name than the string has
    hyphens, so never an empty list (not even for the empty string). *)
Theorem split_dash_length (s : string) :
  List.length (split_dash s) =
  S (count_occ ascii_dec (list_ascii_of_string s) "-"%char).
Proof. apply split_dash_aux_length. Qed.

(** ** [add_problem_hparams] and [create_experiment] *)

Section ExperimentProps.

Local Open Scope list_scope.

Context {Problem PHParams InputFn ModelFn : Type}.
Variable registry_problem : string -> option Problem.
Variable get_hparams : Problem -> @HParams Problem PHParams -> PHParams.
Variable make_estimator_input_fn :
  Problem -> ModeKey -> @HParams Problem PHParams -> InputFn.
Variable make_estimator_model_fn :
  string -> @HParams Problem PHParams -> bool -> ModelFn.

Lemma bind_ok_eq {A B} (m : @M Problem PHParams A) (f : A -> M B) h h1 a :
  m h = (h1, Ok a) -> bind m f h = f a h1.
Proof. intros H. unfold bind. now rewrite H. Qed.

Lemma bind_err_eq {A B} (m : @M Problem PHParams A) (f : A -> M B) h h1 e :
  m h = (h1, Err e) -> bind m f h = (h1, Err e).
Proof. intros H. unfold bind. now rewrite H. Qed.


Lemma add_problem_hparams_loop_fields names (h : @HParams Problem PHParams) :
  tpu_batch_size_per_shard
    (fst (add_problem_hparams_loop registry_problem get_hparams names h)) =
    tpu_batch_size_per_shard h /\
  hp_data_dir
    (fst (add_problem_hparams_loop registry_problem get_hparams names h)) =
    hp_data_dir h.
Proof.
  revert h; induction names as [|n names IH]; intros h; [split; reflexivity|].
  cbn [add_problem_hparams_loop].
  unfold bind, registry_lookup, ret, raise, get, put, set_problems,
    set_problem_instances.
  destruct (registry_problem n); simpl; [|split; reflexivity].
  match goal with
  | |- context [add_problem_hparams_loop _ _ names ?R] =>
      destruct (IH R) as [A B]
  end.
  rewrite A, B. split; reflexivity.
Qed.

Lemma add_problem_hparams_loop_instances names (h h' : @HParams Problem PHParams) :
  add_problem_hparams_loop registry_problem get_hparams names h = (h', Ok tt) ->
  List.length (problem_instances h') =
    (List.length (problem_instances h) + List.length names)%nat.
Proof.
  revert h; induction names as [|n names IH]; intros h.
  - intros H. injection H as <-. simpl. lia.
  - cbn [add_problem_hparams_loop].
    unfold bind at 1, registry_lookup, raise.
    destruct (registry_problem n); [|discriminate].
    unfold ret, bind, get, put. simpl. intros H.
    rewrite (IH _ H). simpl. rewrite length_app. simpl. lia.
Qed.

Lemma add_problem_hparams_fields s (h : @HParams Problem PHParams) :
  tpu_batch_size_per_shard
    (fst (add_problem_hparams registry_problem get_hparams s h)) =
    tpu_batch_size_per_shard h /\
  hp_data_dir (fst (add_problem_hparams registry_problem get_hparams s h)) =
    hp_data_dir h.
Proof.
  rewrite add_problem_hparams_reset.
  match goal with
  | |- context [add_problem_hparams_loop _ _ _ ?R] =>
      destruct (add_problem_hparams_loop_fields (split_dash s) R) as [A B]
  end.
  rewrite A, B. split; reflexivity.
Qed.

(** The problem lists held before [add_problem_hparams] have no
    influence on its outcome (it resets them on entry); in this model the
    other fields are the batch size and the data directory. *)
Lemma add_problem_hparams_old_lists_irrelevant s (h1 h2 : @HParams Problem PHParams) :
  tpu_batch_size_per_shard h1 = tpu_batch_size_per_shard h2 ->
  hp_data_dir h1 = hp_data_dir h2 ->
  add_problem_hparams registry_problem get_hparams s h1 =
  add_problem_hparams registry_problem get_hparams s h2.
Proof.
  intros Hb Hd. rewrite !add_problem_hparams_reset, Hb, Hd. reflexivity.
Qed.

(** Attaching the same problems twice in a row is the same as attaching
    them once: the second call resets the lists the first one built and
    rebuilds them identically (or fails at the same name). *)
Theorem add_problem_hparams_idempotent s (h : @HParams Problem PHParams) :
  bind (add_problem_hparams registry_problem get_hparams s)
       (fun _ => add_problem_hparams registry_problem get_hparams s) h =
  add_problem_hparams registry_problem get_hparams s h.
Proof.
  destruct (add_problem_hparams_fields s h) as [Hb Hd].
  unfold bind.
  destruct (add_problem_hparams registry_problem get_hparams s h)
    as [h' [u|e]] eqn:E; [|reflexivity].
  destruct u. rewrite <- E. simpl in Hb, Hd.
  apply add_problem_hparams_old_lists_irrelevant; assumption.
Qed.

Lemma add_hparam_data_dir_unset d (h : @HParams Problem PHParams) :
  hp_data_dir h = None ->
  add_hparam_data_dir d h =
    ({| tpu_batch_size_per_shard := tpu_batch_size_per_shard h;
        hp_data_dir := d;
        problems := problems h;
        problem_instances := problem_instances h |}, Ok tt).
Proof. intros H. unfold add_hparam_data_dir, bind, get. now rewrite H. Qed.

Lemma add_hparam_data_dir_set d x (h : @HParams Problem PHParams) :
  hp_data_dir h = Some x ->
  add_hparam_data_dir d h =
    (h, Err (ValueError "Hyperparameter name is reserved: data_dir")).
Proof. intros H. unfold add_hparam_data_dir, bind, get. now rewrite H. Qed.

Lemma add_hparam_data_dir_cases d (h h1 : @HParams Problem PHParams) r :
  add_hparam_data_dir d h = (h1, r) ->
  (r = Ok tt /\ hp_data_dir h = None /\ hp_data_dir h1 = d /\
   tpu_batch_size_per_shard h1 = tpu_batch_size_per_shard h) \/
  r = Err (ValueError "Hyperparameter name is reserved: data_dir").
Proof.
  unfold add_hparam_data_dir, bind, get, put, raise.
  destruct (hp_data_dir h) eqn:Hd; intros H; injection H as <- <-; [now right|].
  left. repeat split; reflexivity || assumption.
Qed.


Lemma add_problem_hparams_err s pre n post ps (h : @HParams Problem PHParams) :
  split_dash s = pre ++ n :: post ->
  map registry_problem pre = map Some ps ->
  registry_problem n = None ->
  exists qs,
    add_problem_hparams registry_problem get_hparams s h =
      ({| tpu_batch_size_per_shard := tpu_batch_size_per_shard h;
          hp_data_dir := hp_data_dir h;
          problems := qs;
          problem_instances := ps |}, Err (LookupError n)).
Proof.
  intros Hsplit Hmap Hn. rewrite add_problem_hparams_reset, Hsplit.
  destruct (add_problem_hparams_loop_err registry_problem get_hparams pre n
    post ps
    {| tpu_batch_size_per_shard := tpu_batch_size_per_shard h;
       hp_data_dir := hp_data_dir h;
       problems := [];
       problem_instances := [] |} Hmap Hn) as [qs [Hrun _]].
  exists qs. exact Hrun.
Qed.

Lemma create_experiment_ok_inv run_config args (h h' : @HParams Problem PHParams)
    experiment :
  create_experiment registry_problem get_hparams make_estimator_input_fn
    make_estimator_model_fn run_config args h = (h', Ok experiment) ->
  hp_data_dir h = None /\ hp_data_dir h' = ea_data_dir args /\
  tpu_batch_size_per_shard h' = tpu_batch_size_per_shard h /\
  problem_instances h' <> [].
Proof.
  unfold create_experiment. intros H.
  apply bind_ok in H as [u1 [h1 [E1 H]]].
  apply add_hparam_data_dir_cases in E1 as [[_ [Hd0 [Hd1 Hb1]]] | E1];
    [|discriminate].
  apply bind_ok in H as [u2 [h2 [E2 H]]]. destruct u2.
  destruct (add_problem_hparams_fields (ea_problem_name args) h1) as [Hb2 Hd2].
  rewrite add_problem_hparams_reset in E2.
  pose proof (add_problem_hparams_loop_instances _ _ _ E2) as Hlen.
  rewrite <- add_problem_hparams_reset in E2. rewrite E2 in Hb2, Hd2.
  simpl in Hb2, Hd2, Hlen.
  rewrite split_dash_length in Hlen.
  apply bind_ok in H as [h3 [h3' [E3 H]]]. injection E3 as <- <-.
  apply bind_ok in H as [est [h4 [E4 H]]].
  destruct (create_estimator _ _ _ _ _ _) in E4; [|discriminate].
  injection E4 as <- <-.
  apply bind_ok in H as [h5 [h5' [E5 H]]]. injection E5 as <- <-.
  apply bind_ok in H as [p [h6 [E6 H]]].
  destruct (nth_error _ _) in E6; [|discriminate].
  injection E6 as <- <-.
  apply bind_ok in H as [h7 [h7' [E7 H]]]. injection E7 as <- <-.
  injection H as <- _.
  repeat split; try congruence.
  intros Hnil. rewrite Hnil in Hlen. discriminate.
Qed.

(** [create_experiment] on hparams that already hold a data directory
    fails at [add_hparam] with a [ValueError], before touching them:
    the problem lists are not reset and no estimator is built. *)
Theorem create_experiment_data_dir_already_set run_config args
    (h : @HParams Problem PHParams) d :
  hp_data_dir h = Some d ->
  create_experiment registry_problem get_hparams make_estimator_input_fn
    make_estimator_model_fn run_config args h =
    (h, Err (ValueError "Hyperparameter name is reserved: data_dir")).
Proof.
  intros Hd. unfold create_experiment.
  rewrite (bind_err_eq _ _ _ _ _ (add_hparam_data_dir_set _ _ _ Hd)).
  reflexivity.
Qed.

(** A successful [create_experiment] leaves the data directory, when it
    is not [None], attached to the hparams, so calling it again on the
    same hparams object (by the same or another experiment function)
    fails with a [ValueError]. *)
Theorem create_experiment_not_reusable run_config args run_config' args'
    (h h' : @HParams Problem PHParams) experiment d :
  ea_data_dir args = Some d ->
  create_experiment registry_problem get_hparams make_estimator_input_fn
    make_estimator_model_fn run_config args h = (h', Ok experiment) ->
  create_experiment registry_problem get_hparams make_estimator_input_fn
    make_estimator_model_fn run_config' args' h' =
    (h', Err (ValueError "Hyperparameter name is reserved: data_dir")).
Proof.
  intros Hd Hrun.
  destruct (create_experiment_ok_inv _ _ _ _ _ Hrun) as [_ [Hd' _]].
  apply (create_experiment_data_dir_already_set _ _ _ d). congruence.
Qed.

(** On an unregistered problem name [create_experiment] fails with the
    lookup error of that name and builds no estimator; the data directory
    and the problems before the name stay attached to the hparams. *)
Theorem create_experiment_unregistered run_config args
    (h : @HParams Problem PHParams) pre n post ps :
  hp_data_dir h = None ->
  split_dash (ea_problem_name args) = pre ++ n :: post ->
  map registry_problem pre = map Some ps ->
  registry_problem n = None ->
  exists h',
    create_experiment registry_problem get_hparams make_estimator_input_fn
      make_estimator_model_fn run_config args h = (h', Err (LookupError n)) /\
    hp_data_dir h' = ea_data_dir args /\
    problem_instances h' = ps.
Proof.
  intros Hd Hsplit Hmap Hn. unfold create_experiment.
  rewrite (bind_ok_eq _ _ _ _ _ (add_hparam_data_dir_unset (ea_data_dir args) _ Hd)).
  destruct (add_problem_hparams_err (ea_problem_name args) pre n post ps
    {| tpu_batch_size_per_shard := tpu_batch_size_per_shard h;
       hp_data_dir := ea_data_dir args;
       problems := problems h;
       problem_instances := problem_instances h |} Hsplit Hmap Hn) as [qs E2].
  rewrite (bind_err_eq _ _ _ _ _ E2).
  eexists. split; [reflexivity|]. split; reflexivity.
Qed.


End ExperimentProps.

(** ** Concrete instances of the further properties *)

Definition example_generic_run_config : RunConfig :=
  create_run_config "" None 1000 8 false 1000 1 "" false 1 false.

Definition example_hparams_with_data_dir : @HParams string nat :=
  {| tpu_batch_size_per_shard := 16; hp_data_dir := Some "/data"%string;
     problems := []; problem_instances := [] |}.

Definition example_hparams_stale : @HParams string nat :=
  {| tpu_batch_size_per_shard := 16; hp_data_dir := None;
     problems := [7%nat]; problem_instances := ["probB"%string] |}.

Definition example_args_unknown : ExperimentArgs :=
  {| ea_model_name := "transformer"; ea_problem_name := "probA-probX-probB";
     ea_data_dir := Some "/tmp/t2t_data"%string; ea_train_steps := 1000;
     ea_eval_steps := 10; ea_min_eval_frequency := 100;
     ea_schedule := "train_and_evaluate"; ea_use_tpu := true |}.

Lemma create_experiment_data_dir_already_set_witness :
  create_experiment example_registry example_get_hparams example_input_fn
    example_model_fn example_run_config example_args
    example_hparams_with_data_dir =
    (example_hparams_with_data_dir,
     Err (ValueError "Hyperparameter name is reserved: data_dir")).
Proof.
  exact (create_experiment_data_dir_already_set example_registry
           example_get_hparams example_input_fn example_model_fn
           example_run_config example_args example_hparams_with_data_dir
           "/data" eq_refl).
Defined.

Lemma create_experiment_not_reusable_witness :
  exists h',
    fst (create_experiment example_registry example_get_hparams
           example_input_fn example_model_fn example_run_config example_args
           example_hparams) = h' /\
    create_experiment example_registry example_get_hparams example_input_fn
      example_model_fn example_generic_run_config example_args_unknown h' =
      (h', Err (ValueError "Hyperparameter name is reserved: data_dir")).
Proof.
  destruct (create_experiment example_registry example_get_hparams
              example_input_fn example_model_fn example_run_config
              example_args example_hparams) as [h' [e|x]] eqn:E.
  - exists h'. split; [reflexivity|].
    exact (create_experiment_not_reusable example_registry example_get_hparams
             example_input_fn example_model_fn example_run_config example_args
             example_generic_run_config example_args_unknown example_hparams
             h' e "/tmp/t2t_data" eq_refl E).
  - vm_compute in E. discriminate.
Defined.

Lemma create_experiment_unregistered_witness :
  exists h',
    create_experiment example_registry example_get_hparams example_input_fn
      example_model_fn example_run_config example_args_unknown example_hparams =
      (h', Err (LookupError "probX")) /\
    hp_data_dir h' = Some "/tmp/t2t_data"%string /\
    problem_instances h' = ["probA"]%string.
Proof.
  exact (create_experiment_unregistered example_registry example_get_hparams
           example_input_fn example_model_fn example_run_config
           example_args_unknown example_hparams ["probA"]%string "probX"
           ["probB"]%string ["probA"]%string eq_refl eq_refl eq_refl eq_refl).
Defined.



Lemma create_run_config_shard_bounds_witness :
  exists rc,
    create_run_config_checked "" None 1000 8 false 1000 1 "" false 1 true =
      Ok rc /\
    (forall tc, rc_tpu_config rc = Some tc ->
       num_shards tc = 8 /\ 1 <= num_shards tc) /\
    (forall di, t2t_device_info rc = Some di ->
       1 <= di_num_shards di /\ di_num_async_replicas di = 1).
Proof.
  exists example_run_config. split; [reflexivity|].
  exact (proj1 (create_run_config_shard_bounds "" None 1000 8 false 1000 1 ""
                  false 1 true) example_run_config eq_refl).
Defined.
